(** * The learning stack (misc/cdk/learning/lib/learning-stack.ts)

    The repository's only source file declares one infrastructure stack:
    a constructor that, in one pass, asks the infrastructure framework for a
    network, two security groups, a storage bucket and a bastion host.

    The development has three layers.

    - [MD5]: the digest behind [crypto.createHash('md5')], on 32-bit words
      kept in [Z] with the wrap-around written out, checked against the
      test suite of RFC 1321.
    - The framework as the constructor sees it. Objects live in a heap and
      are passed by reference, so that "the rule names this very group" and
      "nothing ever touches that group" can be said. A construct is one
      heap object: its node in the construct tree (scope, id, children) and
      a descriptor recording the properties it was created with. The
      framework is not part of the repository; each of its operations has
      the least effect the constructor relies on: [new] registers the
      construct under its scope and refuses an id already taken there,
      [addIngressRule] and [addManagedPolicy] append to the list of the
      object they are called on, a hash accumulates its input until the
      digest is taken. Resources the framework derives from a descriptor
      on its own (subnets, routes, instance profiles) are not represented.
    - [LearningStack]: the constructor, statement by statement, as a program
      over those operations; [run] gives the heap it leaves and [trace] the
      calls it makes with the heap after each.

    The theorems hold for every heap the constructor may be called on and
    every scope, id and properties for which the inherited constructor
    returns, that is, whenever [id] is [available] in [scope]; otherwise
    the constructor throws what the inherited constructor throws. *)

From Stdlib Require Import ZArith String Ascii List Lia Bool.
From Stdlib Require Import Relations.Relation_Operators.
From stdpp Require Import list strings.

Open Scope Z_scope.

(* ===================================================================== *)
(** * MD5 (node:crypto, algorithm 'md5')                                  *)
(* ===================================================================== *)

Module MD5.

(** 32-bit words live in [Z]; every addition and rotation wraps. *)
Definition wrap (x : Z) : Z := x mod 2 ^ 32.
Definition add32 (a b : Z) : Z := wrap (a + b).
Definition not32 (x : Z) : Z := Z.lxor x 0xffffffff.
Definition rotl (x c : Z) : Z :=
  wrap (Z.lor (Z.shiftl x c) (Z.shiftr x (32 - c))).

(** Per-round additive constants, [floor (2^32 * |sin (i + 1)|)]. *)
Definition K : list Z :=
[ 0xd76aa478; 0xe8c7b756; 0x242070db; 0xc1bdceee;
  0xf57c0faf; 0x4787c62a; 0xa8304613; 0xfd469501;
  0x698098d8; 0x8b44f7af; 0xffff5bb1; 0x895cd7be;
  0x6b901122; 0xfd987193; 0xa679438e; 0x49b40821;
  0xf61e2562; 0xc040b340; 0x265e5a51; 0xe9b6c7aa;
  0xd62f105d; 0x02441453; 0xd8a1e681; 0xe7d3fbc8;
  0x21e1cde6; 0xc33707d6; 0xf4d50d87; 0x455a14ed;
  0xa9e3e905; 0xfcefa3f8; 0x676f02d9; 0x8d2a4c8a;
  0xfffa3942; 0x8771f681; 0x6d9d6122; 0xfde5380c;
  0xa4beea44; 0x4bdecfa9; 0xf6bb4b60; 0xbebfbc70;
  0x289b7ec6; 0xeaa127fa; 0xd4ef3085; 0x04881d05;
  0xd9d4d039; 0xe6db99e5; 0x1fa27cf8; 0xc4ac5665;
  0xf4292244; 0x432aff97; 0xab9423a7; 0xfc93a039;
  0x655b59c3; 0x8f0ccc92; 0xffeff47d; 0x85845dd1;
  0x6fa87e4f; 0xfe2ce6e0; 0xa3014314; 0x4e0811a1;
  0xf7537e82; 0xbd3af235; 0x2ad7d2bb; 0xeb86d391 ].

(** Per-round left-rotation amounts. *)
Definition shifts : list Z :=
[ 7; 12; 17; 22;  7; 12; 17; 22;  7; 12; 17; 22;  7; 12; 17; 22;
  5;  9; 14; 20;  5;  9; 14; 20;  5;  9; 14; 20;  5;  9; 14; 20;
  4; 11; 16; 23;  4; 11; 16; 23;  4; 11; 16; 23;  4; 11; 16; 23;
  6; 10; 15; 21;  6; 10; 15; 21;  6; 10; 15; 21;  6; 10; 15; 21 ].

Record state := State { sa : Z; sb : Z; sc : Z; sd : Z }.

Definition init : state :=
  State 0x67452301 0xefcdab89 0x98badcfe 0x10325476.

(** One of the 64 operations on a 16-word block [M]. *)
Definition step (M : list Z) (st : state) (i : nat) : state :=
  let '(State a b c d) := st in
  let '(f, g) :=
    match (i / 16)%nat with
    | 0%nat => (Z.lor (Z.land b c) (Z.land (not32 b) d), i)
    | 1%nat => (Z.lor (Z.land d b) (Z.land (not32 d) c), ((5 * i + 1) mod 16)%nat)
    | 2%nat => (Z.lxor b (Z.lxor c d), ((3 * i + 5) mod 16)%nat)
    | _ => (Z.lxor c (Z.lor b (not32 d)), ((7 * i) mod 16)%nat)
    end in
  let f' := add32 (add32 (add32 f a) (nth i K 0)) (nth g M 0) in
  State d (add32 b (rotl f' (nth i shifts 0))) b c.

Definition compress (st : state) (M : list Z) : state :=
  let '(State a b c d) := fold_left (step M) (seq 0 64) st in
  State (add32 (sa st) a) (add32 (sb st) b) (add32 (sc st) c) (add32 (sd st) d).

(** Little-endian packing of bytes into words, and back. *)
Fixpoint words (bs : list Z) : list Z :=
  match bs with
  | b0 :: b1 :: b2 :: b3 :: rest =>
      (b0 + 2 ^ 8 * b1 + 2 ^ 16 * b2 + 2 ^ 24 * b3) :: words rest
  | _ => []
  end.

Definition le_bytes (n : nat) (x : Z) : list Z :=
  map (fun i => Z.shiftr x (8 * Z.of_nat i) mod 256) (seq 0 n).

(** Padding: a single 1 bit, zeros up to 56 mod 64, then the bit length
    of the message as a 64-bit little-endian integer. *)
Definition pad (bs : list Z) : list Z :=
  let len := Z.of_nat (length bs) in
  bs ++ [0x80] ++ repeat 0 (Z.to_nat ((55 - len) mod 64))
     ++ le_bytes 8 ((8 * len) mod 2 ^ 64).

Fixpoint blocks (n : nat) (bs : list Z) : list (list Z) :=
  match n with
  | O => []
  | S n' => firstn 64 bs :: blocks n' (skipn 64 bs)
  end.

Definition digest (bs : list Z) : list Z :=
  let padded := pad bs in
  let st := fold_left compress
              (map words (blocks (length padded / 64) padded)) init in
  le_bytes 4 (sa st) ++ le_bytes 4 (sb st)
    ++ le_bytes 4 (sc st) ++ le_bytes 4 (sd st).

(** Lowercase hexadecimal, two digits per byte (encoding 'hex'). *)
Definition hex_digit (n : Z) : ascii :=
  nth (Z.to_nat n)
      (list_ascii_of_string "0123456789abcdef") "0"%char.

Fixpoint hex (bs : list Z) : string :=
  match bs with
  | [] => EmptyString
  | b :: rest => String (hex_digit (b / 16)) (String (hex_digit (b mod 16)) (hex rest))
  end.

Definition bytes_of_string (s : string) : list Z :=
  map (fun c => Z.of_N (N_of_ascii c)) (list_ascii_of_string s).

Definition hexdigest (s : string) : string := hex (digest (bytes_of_string s)).

End MD5.

(* ===================================================================== *)
(** * Descriptors: the property records the constructor fills in          *)
(* ===================================================================== *)

(** Objects are passed by reference; a reference is an index in the heap. *)
Definition loc := nat.

(** Optional properties of the framework's records ([name?: T]) are
    options; numbers are integers. *)

Module cdk.

Module RemovalPolicy.
Inductive t := DESTROY | RETAIN | SNAPSHOT | RETAIN_ON_UPDATE_OR_DELETE.
End RemovalPolicy.

Module Environment.
Record t := { account : option string; region : option string }.
End Environment.

(** Stack-level properties: handed to the base class, never read by the
    constructor itself. *)
Module StackProps.
Record t := {
  env : option Environment.t;
  stackName : option string;
  description : option string;
  tags : option (list (string * string));
  terminationProtection : option bool }.
End StackProps.

End cdk.

Module iam.

Module ManagedPolicy.
Inductive t :=
| fromAwsManagedPolicyName (managedPolicyName : string)
| fromManagedPolicyArn (managedPolicyArn : string).
End ManagedPolicy.

End iam.

Module ec2.

Module SubnetType.
Inductive t := PRIVATE_ISOLATED | PRIVATE_WITH_EGRESS | PUBLIC.
End SubnetType.

Module IpAddresses.
Inductive t := cidr (cidrBlock : string).
End IpAddresses.

Module SubnetConfiguration.
Record t := {
  cidrMask : option Z;
  name : string;
  subnetType : SubnetType.t;
  mapPublicIpOnLaunch : option bool }.
End SubnetConfiguration.

Module VpcProps.
Record t := {
  ipAddresses : option IpAddresses.t;
  maxAzs : option Z;
  subnetConfiguration : option (list SubnetConfiguration.t) }.
End VpcProps.

Module SecurityGroupProps.
Record t := { securityGroupName : option string; vpc : loc }.
End SecurityGroupProps.

Module Protocol.
Inductive t := ALL | TCP | UDP | ICMP.

Definition eqb (a b : t) : bool :=
  match a, b with
  | ALL, ALL | TCP, TCP | UDP, UDP | ICMP, ICMP => true
  | _, _ => false
  end.
End Protocol.

(** A port range of one protocol. [tcp n] is the single TCP port [n]. *)
Module Port.
Record t := {
  protocol : Protocol.t;
  fromPort : option Z;
  toPort : option Z }.

Definition tcp (port : Z) : t :=
  {| protocol := Protocol.TCP; fromPort := Some port; toPort := Some port |}.

(** The traffic a range lets through: protocol [p], port [n]. *)
Definition permits (r : t) (p : Protocol.t) (n : Z) : bool :=
  (Protocol.eqb (protocol r) Protocol.ALL || Protocol.eqb (protocol r) p)
  && match fromPort r with Some lo => lo <=? n | None => true end
  && match toPort r with Some hi => n <=? hi | None => true end.
End Port.

(** The source of a rule. A security group object is itself a peer; the
    other peers are named by address range or by identifier string. *)
Module Peer.
Inductive t :=
| securityGroup (sg : loc)
| ipv4 (cidrIp : string)
| anyIpv4
| securityGroupId (securityGroupId : string).

Definition eqb (a b : t) : bool :=
  match a, b with
  | securityGroup x, securityGroup y => Nat.eqb x y
  | ipv4 x, ipv4 y => String.eqb x y
  | anyIpv4, anyIpv4 => true
  | securityGroupId x, securityGroupId y => String.eqb x y
  | _, _ => false
  end.
End Peer.

Module IngressRule.
Record t := { peer : Peer.t; connection : Port.t }.

(** The inbound traffic a rule lets through: from [src], protocol [p],
    port [n]. *)
Definition admits (r : t) (src : Peer.t) (p : Protocol.t) (n : Z) : bool :=
  Peer.eqb (peer r) src && Port.permits (connection r) p n.
End IngressRule.

(** The framework's identifiers of the instance classes and sizes
    (aws-cdk-lib/aws-ec2); the source names [C7I] and [XLARGE2]. *)
Module InstanceClass.
Inductive t := T3 | M5 | C5 | C7I | R5.

Definition toString (c : t) : string :=
  match c with
  | T3 => "t3" | M5 => "m5" | C5 => "c5" | C7I => "c7i" | R5 => "r5"
  end.
End InstanceClass.

Module InstanceSize.
Inductive t := NANO | MICRO | SMALL | MEDIUM | LARGE | XLARGE | XLARGE2 | XLARGE4.

Definition toString (s : t) : string :=
  match s with
  | NANO => "nano" | MICRO => "micro" | SMALL => "small"
  | MEDIUM => "medium" | LARGE => "large" | XLARGE => "xlarge"
  | XLARGE2 => "2xlarge" | XLARGE4 => "4xlarge"
  end.
End InstanceSize.

Module InstanceType.
Record t := {
  instanceClass : InstanceClass.t;
  instanceSize : InstanceSize.t }.

(** [InstanceType.of] ([of] is reserved, hence the underscore). *)
Definition of_ (c : InstanceClass.t) (s : InstanceSize.t) : t :=
  {| instanceClass := c; instanceSize := s |}.

Definition toString (ty : t) : string :=
  InstanceClass.toString (instanceClass ty) +:+ "." +:+
  InstanceSize.toString (instanceSize ty).
End InstanceType.

Module BlockDeviceVolume.
Inductive t :=
| ebs (volumeSize : Z)
| ephemeral (volumeIndex : Z).
End BlockDeviceVolume.

Module BlockDevice.
Record t := { deviceName : string; volume : BlockDeviceVolume.t }.
End BlockDevice.

Module BastionHostLinuxProps.
Record t := {
  vpc : loc;
  instanceName : option string;
  instanceType : option InstanceType.t;
  securityGroup : option loc;
  blockDevices : option (list BlockDevice.t) }.
End BastionHostLinuxProps.

End ec2.

Module s3.

Module BucketProps.
Record t := {
  bucketName : option string;
  removalPolicy : option cdk.RemovalPolicy.t;
  autoDeleteObjects : option bool }.
End BucketProps.

End s3.

(* ===================================================================== *)
(** * The heap: constructs and the objects they own                       *)
(* ===================================================================== *)

(** The place of a construct in the construct tree: the scope it was
    created in, its id there, and its children in registration order. *)
Module Node.
Record t := {
  scope : option loc;
  id : string;
  children : list (string * loc) }.

Definition leaf (scope : loc) (id : string) : t :=
  {| scope := Some scope; id := id; children := [] |}.

Definition has_child (id : string) (n : t) : bool :=
  existsb (fun c => String.eqb id (fst c)) (children n).

Definition add_child (id : string) (l : loc) (n : t) : t :=
  {| scope := scope n; id := Node.id n; children := children n ++ [(id, l)] |}.
End Node.

(** What a construct describes. [Root] stands for any construct of the
    hosting application that is not one of the kinds below. *)
Inductive Resource :=
| Root
| Stack (props : option cdk.StackProps.t)
| Vpc (props : ec2.VpcProps.t)
| SecurityGroup (props : ec2.SecurityGroupProps.t) (ingress : list ec2.IngressRule.t)
| Bucket (props : s3.BucketProps.t)
| BastionHostLinux (props : ec2.BastionHostLinuxProps.t) (role : loc)
| Role (managedPolicies : list iam.ManagedPolicy.t).

Inductive Object :=
| Construct (node : Node.t) (res : Resource)
| Hash (algorithm : string) (data : string) (finalized : bool).

(** The heap grows at its end: a new object gets the next index, and an
    object is mutated by replacing it at its index. *)
Abbreviation World := (list Object).

Inductive Error :=
| NameTaken (scope : loc) (id : string)
| TypeError (l : loc)
| HashFinalized (l : loc)
| Unsupported (what : string).

Inductive Result (A : Type) :=
| Ok (a : A)
| Err (e : Error).
Arguments Ok {A} a.
Arguments Err {A} e.

(* ===================================================================== *)
(** * The framework operations and their effect on the heap               *)
(* ===================================================================== *)

(** The calls the constructor makes. The index is the type of the value a
    call returns; [new_*] return the reference of the object created. *)
Inductive Op : Type -> Type :=
| super_Stack (scope : loc) (id : string) (props : option cdk.StackProps.t) : Op loc
| new_Vpc (scope : loc) (id : string) (props : ec2.VpcProps.t) : Op loc
| new_SecurityGroup (scope : loc) (id : string) (props : ec2.SecurityGroupProps.t) : Op loc
| addIngressRule (sg : loc) (peer : ec2.Peer.t) (connection : ec2.Port.t) : Op unit
| createHash (algorithm : string) : Op loc
| update (hash : loc) (data : string) : Op unit
| digest (hash : loc) (encoding : string) : Op string
| new_Bucket (scope : loc) (id : string) (props : s3.BucketProps.t) : Op loc
| new_BastionHostLinux (scope : loc) (id : string) (props : ec2.BastionHostLinuxProps.t) : Op loc
| get_role (host : loc) : Op loc
| addManagedPolicy (role : loc) (policy : iam.ManagedPolicy.t) : Op unit.

(** [new Construct(scope, id)]: the new construct is registered as a child
    of [scope]; an id already used in that scope is refused. *)
Definition Construct_new (scope : loc) (id : string) (res : Resource) (w : World)
  : Result (loc * World) :=
  match w !! scope with
  | Some (Construct n r) =>
      if Node.has_child id n then Err (NameTaken scope id)
      else
        let l := length w in
        Ok (l, <[scope := Construct (Node.add_child id l n) r]> w
                 ++ [Construct (Node.leaf scope id) res])
  | _ => Err (TypeError scope)
  end.

(** [sg.addIngressRule(peer, connection)]: the rule joins the group's list. *)
Definition SecurityGroup_addIngressRule
    (sg : loc) (peer : ec2.Peer.t) (connection : ec2.Port.t) (w : World)
  : Result (unit * World) :=
  match w !! sg with
  | Some (Construct n (SecurityGroup p rules)) =>
      let rule := {| ec2.IngressRule.peer := peer;
                     ec2.IngressRule.connection := connection |} in
      Ok (tt, <[sg := Construct n (SecurityGroup p (rules ++ [rule]))]> w)
  | _ => Err (TypeError sg)
  end.

(** [crypto.createHash(algorithm)]; MD5 is the one algorithm modelled. *)
Definition crypto_createHash (algorithm : string) (w : World)
  : Result (loc * World) :=
  if String.eqb algorithm "md5"
  then Ok (length w, w ++ [Hash algorithm "" false])
  else Err (Unsupported algorithm).

(** [hash.update(data)]: appends to the pending input; refused once the
    digest has been taken. *)
Definition Hash_update (hash : loc) (data : string) (w : World)
  : Result (unit * World) :=
  match w !! hash with
  | Some (Hash a d false) => Ok (tt, <[hash := Hash a (d +:+ data) false]> w)
  | Some (Hash _ _ true) => Err (HashFinalized hash)
  | _ => Err (TypeError hash)
  end.

(** [hash.digest(encoding)]: the digest of everything passed to [update],
    in lowercase hexadecimal for 'hex'; the object is then finalized. *)
Definition Hash_digest (hash : loc) (encoding : string) (w : World)
  : Result (string * World) :=
  match w !! hash with
  | Some (Hash a d false) =>
      if negb (String.eqb a "md5") then Err (Unsupported a)
      else if negb (String.eqb encoding "hex") then Err (Unsupported encoding)
      else Ok (MD5.hexdigest d, <[hash := Hash a d true]> w)
  | Some (Hash _ _ true) => Err (HashFinalized hash)
  | _ => Err (TypeError hash)
  end.

(** [new ec2.BastionHostLinux(scope, id, props)]: the host, and under it
    the role its instance runs as, which starts without managed policies. *)
Definition BastionHostLinux_new
    (scope : loc) (id : string) (props : ec2.BastionHostLinuxProps.t) (w : World)
  : Result (loc * World) :=
  match Construct_new scope id (BastionHostLinux props (length w + 1)%nat) w with
  | Ok (host, w1) =>
      match Construct_new host "InstanceRole" (Role []) w1 with
      | Ok (_, w2) => Ok (host, w2)
      | Err e => Err e
      end
  | Err e => Err e
  end.

(** [host.role] *)
Definition BastionHostLinux_role (host : loc) (w : World) : Result (loc * World) :=
  match w !! host with
  | Some (Construct _ (BastionHostLinux _ r)) => Ok (r, w)
  | _ => Err (TypeError host)
  end.

(** [role.addManagedPolicy(policy)] *)
Definition Role_addManagedPolicy
    (role : loc) (policy : iam.ManagedPolicy.t) (w : World)
  : Result (unit * World) :=
  match w !! role with
  | Some (Construct n (Role ps)) =>
      Ok (tt, <[role := Construct n (Role (ps ++ [policy]))]> w)
  | _ => Err (TypeError role)
  end.

Definition exec {R : Type} (op : Op R) (w : World) : Result (R * World) :=
  match op in Op R return Result (R * World) with
  | super_Stack scope id props => Construct_new scope id (Stack props) w
  | new_Vpc scope id props => Construct_new scope id (Vpc props) w
  | new_SecurityGroup scope id props =>
      Construct_new scope id (SecurityGroup props []) w
  | addIngressRule sg peer connection =>
      SecurityGroup_addIngressRule sg peer connection w
  | createHash algorithm => crypto_createHash algorithm w
  | update hash data => Hash_update hash data w
  | digest hash encoding => Hash_digest hash encoding w
  | new_Bucket scope id props => Construct_new scope id (Bucket props) w
  | new_BastionHostLinux scope id props => BastionHostLinux_new scope id props w
  | get_role host => BastionHostLinux_role host w
  | addManagedPolicy role policy => Role_addManagedPolicy role policy w
  end.

(* ===================================================================== *)
(** * Programs over the framework                                         *)
(* ===================================================================== *)

(** A constructor body is a sequence of calls, each continuing with the
    value the call returned. *)
Inductive Prog (A : Type) : Type :=
| Ret (a : A)
| Do {R : Type} (op : Op R) (k : R -> Prog A).
Arguments Ret {A} a.
Arguments Do {A R} op k.

Notation "x <- op ;; k" := (Do op (fun x => k))
  (at level 100, op at next level, k at level 200, right associativity).
Notation "op ;; k" := (Do op (fun _ => k))
  (at level 100, k at level 200, right associativity).

(** Running a program: the first call that throws ends it. *)
Fixpoint run {A : Type} (p : Prog A) (w : World) : Result (A * World) :=
  match p with
  | Ret a => Ok (a, w)
  | Do op k =>
      match exec op w with
      | Ok (r, w') => run (k r) w'
      | Err e => Err e
      end
  end.

(** The calls a run makes, each with its result and the heap it left. *)
Inductive Event :=
| Called {R : Type} (op : Op R) (result : R).

Fixpoint trace {A : Type} (p : Prog A) (w : World) : list (Event * World) :=
  match p with
  | Ret _ => []
  | Do op k =>
      match exec op w with
      | Ok (r, w') => (Called op r, w') :: trace (k r) w'
      | Err _ => []
      end
  end.

(* ===================================================================== *)
(** * The constructor of LearningStack                                    *)
(* ===================================================================== *)

(** [constructor(scope: Construct, id: string, props?: cdk.StackProps)];
    the value of the program is [this]. *)
Definition LearningStack
    (scope : loc) (id : string) (props : option cdk.StackProps.t) : Prog loc :=
  this <- super_Stack scope id props ;;

  vpc <- new_Vpc this "Vpc" {|
    ec2.VpcProps.ipAddresses := Some (ec2.IpAddresses.cidr "10.0.0.0/16");
    ec2.VpcProps.maxAzs := Some 1;
    ec2.VpcProps.subnetConfiguration := Some [
      {| ec2.SubnetConfiguration.cidrMask := Some 24;
         ec2.SubnetConfiguration.name := "Public";
         ec2.SubnetConfiguration.subnetType := ec2.SubnetType.PUBLIC;
         ec2.SubnetConfiguration.mapPublicIpOnLaunch := Some false |}
    ] |} ;;

  bastionSg <- new_SecurityGroup this "from-bastion" {|
    ec2.SecurityGroupProps.securityGroupName := Some "from-bastion";
    ec2.SecurityGroupProps.vpc := vpc |} ;;

  allowFromBastionSg <- new_SecurityGroup this "allow-from-bastion" {|
    ec2.SecurityGroupProps.securityGroupName := Some "allow-from-bastion";
    ec2.SecurityGroupProps.vpc := vpc |} ;;

  addIngressRule allowFromBastionSg
    (ec2.Peer.securityGroup bastionSg)
    (ec2.Port.tcp 22) ;;

  hash <- createHash "md5" ;;
  update hash "learning-bucket" ;;
  hex <- digest hash "hex" ;;
  bucket <- new_Bucket this "bucket" {|
    s3.BucketProps.bucketName := Some ("learning-bucket-" +:+ hex);
    s3.BucketProps.removalPolicy := Some cdk.RemovalPolicy.DESTROY;
    s3.BucketProps.autoDeleteObjects := Some true |} ;;

  bastion <- new_BastionHostLinux this "bastion" {|
    ec2.BastionHostLinuxProps.vpc := vpc;
    ec2.BastionHostLinuxProps.instanceName := Some "bastion";
    ec2.BastionHostLinuxProps.instanceType :=
      Some (ec2.InstanceType.of_ ec2.InstanceClass.C7I ec2.InstanceSize.XLARGE2);
    ec2.BastionHostLinuxProps.securityGroup := Some bastionSg;
    ec2.BastionHostLinuxProps.blockDevices := Some [
      {| ec2.BlockDevice.deviceName := "/dev/xvda";
         ec2.BlockDevice.volume := ec2.BlockDeviceVolume.ebs 30 |}
    ] |} ;;

  role <- get_role bastion ;;
  addManagedPolicy role
    (iam.ManagedPolicy.fromAwsManagedPolicyName "AdministratorAccess") ;;
  Ret this.

(* ===================================================================== *)
(** * Reading the construct tree                                          *)
(* ===================================================================== *)

Definition resource_at (w : World) (l : loc) : option Resource :=
  match w !! l with
  | Some (Construct _ r) => Some r
  | _ => None
  end.

Definition children_of (w : World) (l : loc) : list (string * loc) :=
  match w !! l with
  | Some (Construct n _) => Node.children n
  | _ => []
  end.

(** [scope.node.tryFindChild(id)] *)
Definition tryFindChild (w : World) (scope : loc) (id : string) : option loc :=
  match find (fun c => String.eqb id (fst c)) (children_of w scope) with
  | Some (_, l) => Some l
  | None => None
  end.

(** The ingress rules of the security group at [l]. *)
Definition ingress_of (w : World) (l : loc) : option (list ec2.IngressRule.t) :=
  match resource_at w l with
  | Some (SecurityGroup _ rules) => Some rules
  | _ => None
  end.

(** The inbound traffic the security group at [l] lets through. *)
Definition admits (w : World) (l : loc)
    (src : ec2.Peer.t) (p : ec2.Protocol.t) (n : Z) : bool :=
  match ingress_of w l with
  | Some rules => existsb (fun r => ec2.IngressRule.admits r src p n) rules
  | None => false
  end.

(** The managed policies of the role at [l]. *)
Definition managedPolicies_of (w : World) (l : loc)
  : option (list iam.ManagedPolicy.t) :=
  match resource_at w l with
  | Some (Role ps) => Some ps
  | _ => None
  end.

(** The subtree under a construct, parents before children, children in
    registration order; [depth] bounds the number of levels visited. *)
Fixpoint subtree (depth : nat) (w : World) (l : loc) : list loc :=
  match depth with
  | O => []
  | S d => l :: flat_map (fun c => subtree d w (snd c)) (children_of w l)
  end.

Inductive Kind := Network | Group | Storage | Instance | Other.

Definition kind_of (r : Resource) : Kind :=
  match r with
  | Vpc _ => Network
  | SecurityGroup _ _ => Group
  | Bucket _ => Storage
  | BastionHostLinux _ _ => Instance
  | Root | Stack _ | Role _ => Other
  end.

Definition Kind_eqb (a b : Kind) : bool :=
  match a, b with
  | Network, Network | Group, Group | Storage, Storage
  | Instance, Instance | Other, Other => true
  | _, _ => false
  end.

Definition kind_at (w : World) (l : loc) : option Kind :=
  match resource_at w l with
  | Some r => Some (kind_of r)
  | None => None
  end.

Definition has_kind (w : World) (k : Kind) (l : loc) : bool :=
  match kind_at w l with
  | Some k' => Kind_eqb k' k
  | None => false
  end.

(** The constructs of kind [k] among [ls]. *)
Definition of_kind (w : World) (k : Kind) (ls : list loc) : list loc :=
  List.filter (has_kind w k) ls.

(** The objects a descriptor refers to: the network it is placed in, the
    group it is tagged with, the groups its ingress rules name. What a
    construct owns (the host's role) is its child in the tree, not a
    reference to another resource. *)
Definition peer_refs (r : ec2.IngressRule.t) : list loc :=
  match ec2.IngressRule.peer r with
  | ec2.Peer.securityGroup sg => [sg]
  | _ => []
  end.

Definition refs (r : Resource) : list loc :=
  match r with
  | SecurityGroup p rules =>
      ec2.SecurityGroupProps.vpc p :: flat_map peer_refs rules
  | BastionHostLinux p _ =>
      ec2.BastionHostLinuxProps.vpc p ::
      match ec2.BastionHostLinuxProps.securityGroup p with
      | Some sg => [sg]
      | None => []
      end
  | _ => []
  end.

Definition deps_of (w : World) (l : loc) : list loc :=
  match resource_at w l with
  | Some r => refs r
  | None => []
  end.

(** [depends_on w a b]: the descriptor at [a] holds a reference to [b]. *)
Definition depends_on (w : World) (a b : loc) : Prop := In b (deps_of w a).

(** What an event created, and the group an event added a rule to. *)
Definition created (e : Event) : option (Kind * loc) :=
  match e with
  | Called op r =>
      match op in Op R return R -> option (Kind * loc) with
      | new_Vpc _ _ _ => fun l => Some (Network, l)
      | new_SecurityGroup _ _ _ => fun l => Some (Group, l)
      | new_Bucket _ _ _ => fun l => Some (Storage, l)
      | new_BastionHostLinux _ _ _ => fun l => Some (Instance, l)
      | _ => fun _ => None
      end r
  end.

Definition ingress_target (e : Event) : option loc :=
  match e with
  | Called op _ =>
      match op with
      | addIngressRule sg _ _ => Some sg
      | _ => None
      end
  end.

(** The resources a run created, in the order of their creation. *)
Definition creations (t : list (Event * World)) : list (Kind * loc) :=
  flat_map (fun s => match created (fst s) with Some c => [c] | None => [] end) t.

(** The base-class constructor accepts [id] in [scope]: [scope] is a
    construct and has no child of that name yet. *)
Definition available (w : World) (scope : loc) (id : string) : bool :=
  match w !! scope with
  | Some (Construct n _) => negb (Node.has_child id n)
  | _ => false
  end.

(** The old heap once the new stack is entered among the children of its
    scope. *)
Definition registered (w : World) (scope : loc) (id : string) : World :=
  match w !! scope with
  | Some (Construct n r) =>
      <[scope := Construct (Node.add_child id (length w) n) r]> w
  | _ => w
  end.

(** The heap segment the constructor leaves behind, from [this] on: the
    stack, the five constructs in creation order (the hash object between
    the groups and the bucket), and the host's role. *)
Definition synthesized
    (this scope : loc) (id : string) (props : option cdk.StackProps.t)
  : list Object :=
  let vpc := (this + 1)%nat in
  let bastionSg := (this + 2)%nat in
  let allowFromBastionSg := (this + 3)%nat in
  let bucket := (this + 5)%nat in
  let bastion := (this + 6)%nat in
  let role := (this + 7)%nat in
  [ Construct
      {| Node.scope := Some scope; Node.id := id;
         Node.children :=
           [("Vpc", vpc); ("from-bastion", bastionSg);
            ("allow-from-bastion", allowFromBastionSg);
            ("bucket", bucket); ("bastion", bastion)] |}
      (Stack props);
    Construct (Node.leaf this "Vpc")
      (Vpc {|
        ec2.VpcProps.ipAddresses := Some (ec2.IpAddresses.cidr "10.0.0.0/16");
        ec2.VpcProps.maxAzs := Some 1;
        ec2.VpcProps.subnetConfiguration := Some [
          {| ec2.SubnetConfiguration.cidrMask := Some 24;
             ec2.SubnetConfiguration.name := "Public";
             ec2.SubnetConfiguration.subnetType := ec2.SubnetType.PUBLIC;
             ec2.SubnetConfiguration.mapPublicIpOnLaunch := Some false |} ] |});
    Construct (Node.leaf this "from-bastion")
      (SecurityGroup
         {| ec2.SecurityGroupProps.securityGroupName := Some "from-bastion";
            ec2.SecurityGroupProps.vpc := vpc |}
         []);
    Construct (Node.leaf this "allow-from-bastion")
      (SecurityGroup
         {| ec2.SecurityGroupProps.securityGroupName := Some "allow-from-bastion";
            ec2.SecurityGroupProps.vpc := vpc |}
         [ {| ec2.IngressRule.peer := ec2.Peer.securityGroup bastionSg;
              ec2.IngressRule.connection := ec2.Port.tcp 22 |} ]);
    Hash "md5" "learning-bucket" true;
    Construct (Node.leaf this "bucket")
      (Bucket {|
        s3.BucketProps.bucketName :=
          Some ("learning-bucket-" +:+ MD5.hexdigest "learning-bucket");
        s3.BucketProps.removalPolicy := Some cdk.RemovalPolicy.DESTROY;
        s3.BucketProps.autoDeleteObjects := Some true |});
    Construct
      {| Node.scope := Some this; Node.id := "bastion";
         Node.children := [("InstanceRole", role)] |}
      (BastionHostLinux
         {| ec2.BastionHostLinuxProps.vpc := vpc;
            ec2.BastionHostLinuxProps.instanceName := Some "bastion";
            ec2.BastionHostLinuxProps.instanceType :=
              Some (ec2.InstanceType.of_ ec2.InstanceClass.C7I
                                         ec2.InstanceSize.XLARGE2);
            ec2.BastionHostLinuxProps.securityGroup := Some bastionSg;
            ec2.BastionHostLinuxProps.blockDevices := Some [
              {| ec2.BlockDevice.deviceName := "/dev/xvda";
                 ec2.BlockDevice.volume := ec2.BlockDeviceVolume.ebs 30 |} ] |}
         role);
    Construct (Node.leaf bastion "InstanceRole")
      (Role [iam.ManagedPolicy.fromAwsManagedPolicyName "AdministratorAccess"])
  ].

(** A hosting application with nothing in it yet: the root construct. *)
Definition app : World :=
  [Construct {| Node.scope := None; Node.id := ""; Node.children := [] |} Root].

(* ===================================================================== *)
(** * Postconditions                                                      *)
(* ===================================================================== *)

(** [constructs scope id props w post]: called on heap [w], the constructor
    returns, and [post] holds of [this] and of the heap it leaves. *)
Definition constructs
    (scope : loc) (id : string) (props : option cdk.StackProps.t)
    (w : World) (post : loc -> World -> Prop) : Prop :=
  exists this w',
    run (LearningStack scope id props) w = Ok (this, w') /\ post this w'.

(** The bucket of the stack at [this]: its child "bucket". *)
Definition bucket_of (w : World) (this : loc) : option s3.BucketProps.t :=
  match tryFindChild w this "bucket" with
  | Some b =>
      match resource_at w b with
      | Some (Bucket p) => Some p
      | _ => None
      end
  | None => None
  end.

(** The bucket name a run of the constructor declares. *)
Definition declared_bucketName
    (scope : loc) (id : string) (props : option cdk.StackProps.t) (w : World)
  : option string :=
  match run (LearningStack scope id props) w with
  | Ok (this, w') =>
      match bucket_of w' this with
      | Some p => s3.BucketProps.bucketName p
      | None => None
      end
  | Err _ => None
  end.

(** The child [id] of the construct at [scope], with what it describes. *)
Definition child_resource (w : World) (scope : loc) (id : string)
  : option (loc * Resource) :=
  match tryFindChild w scope id with
  | Some l =>
      match resource_at w l with
      | Some r => Some (l, r)
      | None => None
      end
  | None => None
  end.

(** The descriptor tree of the stack at [this], to any depth from 3 on
    (stack, its children, the host's role). *)
Definition tree (w : World) (this : loc) (d : nat) : list loc :=
  subtree (3 + d) w this.

(** The reading of "each resource depends on the one created immediately
    before it": the five resources are created in the order network,
    bastion group, internal group, bucket, host, and each of the last four
    reaches its predecessor along references. *)
Definition each_depends_on_previous
    (scope : loc) (id : string) (props : option cdk.StackProps.t) (w : World)
  : Prop :=
  constructs scope id props w (fun this w' =>
    exists vpc bastionSg allowFromBastionSg bucket bastion,
      creations (trace (LearningStack scope id props) w)
        = [(Network, vpc); (Group, bastionSg); (Group, allowFromBastionSg);
           (Storage, bucket); (Instance, bastion)] /\
      tryFindChild w' this "from-bastion" = Some bastionSg /\
      tryFindChild w' this "allow-from-bastion" = Some allowFromBastionSg /\
      clos_trans loc (depends_on w') bastionSg vpc /\
      clos_trans loc (depends_on w') allowFromBastionSg bastionSg /\
      clos_trans loc (depends_on w') bucket allowFromBastionSg /\
      clos_trans loc (depends_on w') bastion bucket).

(** The node of the construct at [l]. *)
Definition node_at (w : World) (l : loc) : option Node.t :=
  match w !! l with
  | Some (Construct n _) => Some n
  | _ => None
  end.

(** Every reference a descriptor holds points to an object of the kind its
    property is declared with: [vpc] to a network, [securityGroup] and a
    rule's group peer to a security group, a host's role to a role. *)
Definition refs_well_typed (w : World) (r : Resource) : bool :=
  match r with
  | SecurityGroup p rules =>
      has_kind w Network (ec2.SecurityGroupProps.vpc p)
      && forallb (fun rule => forallb (has_kind w Group) (peer_refs rule)) rules
  | BastionHostLinux p role =>
      has_kind w Network (ec2.BastionHostLinuxProps.vpc p)
      && match ec2.BastionHostLinuxProps.securityGroup p with
         | Some sg => has_kind w Group sg
         | None => true
         end
      && match managedPolicies_of w role with
         | Some _ => true
         | None => false
         end
  | _ => true
  end.

(** The hash calls of a run: the hashes created, the inputs fed to them,
    and the digests taken (hash, encoding, result). *)
Definition hashes_created (t : list (Event * World)) : list (string * loc) :=
  flat_map (fun s =>
    match fst s with
    | Called op r =>
        match op in Op R return R -> list (string * loc) with
        | createHash algorithm => fun l => [(algorithm, l)]
        | _ => fun _ => []
        end r
    end) t.

Definition updates (t : list (Event * World)) : list (loc * string) :=
  flat_map (fun s =>
    match fst s with
    | Called op _ =>
        match op with
        | update hash data => [(hash, data)]
        | _ => []
        end
    end) t.

Definition digests (t : list (Event * World)) : list (loc * string * string) :=
  flat_map (fun s =>
    match fst s with
    | Called op r =>
        match op in Op R return R -> list (loc * string * string) with
        | digest hash encoding => fun out => [(hash, encoding, out)]
        | _ => fun _ => []
        end r
    end) t.

(* ===================================================================== *)
(** * MD5: known answers                                                  *)
(* ===================================================================== *)

(** The test suite of RFC 1321, appendix A.5 (one- and two-block inputs). *)
Example rfc1321_empty : MD5.hexdigest "" = "d41d8cd98f00b204e9800998ecf8427e"%string.
Proof. vm_compute. reflexivity. Qed.

Example rfc1321_a : MD5.hexdigest "a" = "0cc175b9c0f1b6a831c399e269772661"%string.
Proof. vm_compute. reflexivity. Qed.

Example rfc1321_abc : MD5.hexdigest "abc" = "900150983cd24fb0d6963f7d28e17f72"%string.
Proof. vm_compute. reflexivity. Qed.

Example rfc1321_message_digest :
  MD5.hexdigest "message digest" = "f96b697d7cb7938d525a2f31aaf161d0"%string.
Proof. vm_compute. reflexivity. Qed.

Example rfc1321_alphabet :
  MD5.hexdigest "abcdefghijklmnopqrstuvwxyz" = "c3fcd3d76192e4007dfb496cca67e13b"%string.
Proof. vm_compute. reflexivity. Qed.

Example rfc1321_digits :
  MD5.hexdigest
    "12345678901234567890123456789012345678901234567890123456789012345678901234567890"
  = "57edf4a22be3c955ac49da2e2107b67a"%string.
Proof. vm_compute. reflexivity. Qed.

(** The digest is always 16 bytes, so its hex form has 32 characters. *)
Lemma length_le_bytes n x : length (MD5.le_bytes n x) = n.
Proof. unfold MD5.le_bytes. now rewrite length_map, length_seq. Qed.

Lemma length_digest bs : length (MD5.digest bs) = 16%nat.
Proof. unfold MD5.digest. now rewrite !length_app, !length_le_bytes. Qed.

Lemma length_hex bs : String.length (MD5.hex bs) = (2 * length bs)%nat.
Proof. induction bs as [|b bs IH]; simpl; [reflexivity | rewrite IH; lia]. Qed.

Lemma length_hexdigest s : String.length (MD5.hexdigest s) = 32%nat.
Proof. unfold MD5.hexdigest. now rewrite length_hex, length_digest. Qed.

(** Every byte of a digest is below 256, and 'hex' writes it with two of
    the sixteen digits 0-9, a-f: no uppercase letter occurs. *)
Lemma le_bytes_range n x :
  List.Forall (fun b => 0 <= b < 256) (MD5.le_bytes n x).
Proof.
  unfold MD5.le_bytes. apply List.Forall_forall.
  intros b (i & <- & _)%in_map_iff. apply Z.mod_pos_bound. lia.
Qed.

Lemma digest_range bs : List.Forall (fun b => 0 <= b < 256) (MD5.digest bs).
Proof.
  unfold MD5.digest. rewrite !List.Forall_app.
  repeat split; apply le_bytes_range.
Qed.

Lemma hex_digit_lowercase n :
  0 <= n < 16 ->
  In (MD5.hex_digit n) (list_ascii_of_string "0123456789abcdef").
Proof.
  intros Hn. unfold MD5.hex_digit. apply nth_In.
  change (length (list_ascii_of_string "0123456789abcdef")) with 16%nat. lia.
Qed.

Lemma hex_lowercase bs :
  List.Forall (fun b => 0 <= b < 256) bs ->
  List.Forall (fun c => In c (list_ascii_of_string "0123456789abcdef"))
              (list_ascii_of_string (MD5.hex bs)).
Proof.
  induction 1 as [|b bs Hb _ IH]; cbn [MD5.hex list_ascii_of_string].
  - constructor.
  - constructor; [|constructor; [|exact IH]]; apply hex_digit_lowercase.
    + split; [apply Z.div_pos; lia|apply Z.div_lt_upper_bound; lia].
    + apply Z.mod_pos_bound. lia.
Qed.

Lemma hexdigest_lowercase s :
  List.Forall (fun c => In c (list_ascii_of_string "0123456789abcdef"))
              (list_ascii_of_string (MD5.hexdigest s)).
Proof. apply hex_lowercase, digest_range. Qed.

(* ===================================================================== *)
(** * Running the constructor on an arbitrary heap                        *)
(* ===================================================================== *)

Arguments MD5.hexdigest : simpl never.

Section Frame.
Context {A : Type}.
Implicit Types (P suf : list A) (k : nat).

(** Objects allocated after [P] are found by their offset. *)
Lemma lookup_frame P suf k : (P ++ suf) !! (length P + k)%nat = suf !! k.
Proof. rewrite lookup_app_r by lia. f_equal. lia. Qed.

Lemma lookup_frame_0 P suf : (P ++ suf) !! length P = suf !! 0%nat.
Proof. rewrite <- (lookup_frame P suf 0). f_equal. lia. Qed.
End Frame.

Lemma run_Do {A R} (op : Op R) (k : R -> Prog A) w r w' :
  exec op w = Ok (r, w') -> run (Do op k) w = run (k r) w'.
Proof. intros H. cbn [run]. now rewrite H. Qed.

Lemma trace_Do {A R} (op : Op R) (k : R -> Prog A) w r w' :
  exec op w = Ok (r, w') ->
  trace (Do op k) w = (Called op r, w') :: trace (k r) w'.
Proof. intros H. cbn [trace]. now rewrite H. Qed.

Lemma last_cons {A} (l : list A) :
  forall x d, List.last (x :: l) d = List.last l x.
Proof.
  induction l as [|y l IH]; intros x d; [reflexivity|].
  change (List.last (x :: y :: l) d) with (List.last (y :: l) d).
  now rewrite !IH.
Qed.

(** The heap a run ends with is the last heap of its trace. *)
Lemma run_trace_last {A} (p : Prog A) :
  forall w a w', run p w = Ok (a, w') -> List.last (map snd (trace p w)) w = w'.
Proof.
  induction p as [a0|R op k IH]; intros w a w' Hrun.
  - cbn in *. congruence.
  - cbn [run trace] in *.
    destruct (exec op w) as [[r w1]|e]; [|discriminate].
    cbn [map snd]. rewrite last_cons. eauto.
Qed.

(** One call on a heap [P ++ suf] whose arguments point into [suf]. *)
Ltac exec_frame :=
  cbn [exec];
  repeat (progress
    (unfold Construct_new, SecurityGroup_addIngressRule, crypto_createHash,
       Hash_update, Hash_digest, BastionHostLinux_new, BastionHostLinux_role,
       Role_addManagedPolicy;
     rewrite ?lookup_frame, ?length_app, ?insert_app_r,
       <- ?app_assoc, <- ?Nat.add_assoc; cbn));
  reflexivity.

Lemma available_inv w scope id :
  available w scope id = true ->
  exists n r, w !! scope = Some (Construct n r) /\ Node.has_child id n = false.
Proof.
  unfold available. destruct (w !! scope) as [[n r|]|]; try discriminate.
  intros H%negb_true_iff. now exists n, r.
Qed.

Lemma length_registered w scope id : length (registered w scope id) = length w.
Proof.
  unfold registered. destruct (w !! scope) as [[n r|]|]; try reflexivity.
  apply length_insert.
Qed.

(** [super(scope, id, props)] returns exactly when the name is available. *)
Lemma super_Stack_available w scope id props :
  available w scope id = true ->
  exec (super_Stack scope id props) w
    = Ok (length w, registered w scope id
                      ++ [Construct (Node.leaf scope id) (Stack props)]).
Proof.
  intros (n & r & Hs & Hc)%available_inv.
  cbn [exec]. unfold Construct_new, registered. now rewrite Hs, Hc.
Qed.

Lemma super_Stack_refused w scope id props :
  available w scope id = false ->
  exists e, exec (super_Stack scope id props) w = Err e.
Proof.
  cbn [exec]. unfold available, Construct_new.
  destruct (w !! scope) as [[n r|]|]; eauto.
  intros ->%negb_false_iff. eauto.
Qed.

(** Entering the stack's body, with [P] the old heap after registration:
    the heap is [P ++ [stack]] and [this] is the first index after [P]. *)
Ltac enter_body Hav P HPeq :=
  let HP := fresh "HP" in
  match type of HPeq with
  | P = registered ?w ?scope ?id =>
      assert (HP : length w = (length P + 0)%nat)
        by (rewrite HPeq, length_registered; lia);
      unfold LearningStack;
      first [ erewrite run_Do by (apply super_Stack_available; exact Hav)
            | erewrite trace_Do by (apply super_Stack_available; exact Hav) ];
      rewrite <- ?HPeq, ?HP
  end.

(** The constructor returns whenever the base class accepts its arguments,
    and leaves [synthesized] after the old heap. *)
Lemma LearningStack_run w scope id props :
  available w scope id = true ->
  run (LearningStack scope id props) w
    = Ok (length w,
          registered w scope id ++ synthesized (length w) scope id props).
Proof.
  intros Hav.
  remember (registered w scope id) as P eqn:HPeq.
  enter_body Hav P HPeq.
  do 11 (erewrite run_Do by exec_frame).
  cbn [run]. unfold synthesized. rewrite !Nat.add_0_r. reflexivity.
Qed.

(** The calls of a run, one by one, with the heaps they leave. *)
Ltac trace_explicit Hav P HPeq Ht :=
  match type of HPeq with
  | P = registered ?w ?scope ?id =>
      eassert (Ht : trace (LearningStack scope id _) w = _)
        by (enter_body Hav P HPeq;
            do 11 (erewrite trace_Do by exec_frame);
            cbn [trace]; reflexivity)
  end.

(** It throws only where the base class does, and then with its error. *)
Lemma LearningStack_refused w scope id props :
  available w scope id = false ->
  exists e,
    exec (super_Stack scope id props) w = Err e /\
    run (LearningStack scope id props) w = Err e.
Proof.
  intros [e He]%(super_Stack_refused _ _ _ props).
  exists e. split; [exact He|].
  unfold LearningStack. cbn [run]. now rewrite He.
Qed.

(** Two stacks in one application: the second id must differ, and both
    stacks then sit side by side under the root. *)
Example same_id_twice_is_refused :
  exists this w',
    run (LearningStack 0%nat "LearningStack" None) app = Ok (this, w') /\
    available w' 0%nat "LearningStack" = false /\
    run (LearningStack 0%nat "LearningStack" None) w'
      = Err (NameTaken 0%nat "LearningStack").
Proof. do 2 eexists. split; [vm_compute; reflexivity|]. now vm_compute. Qed.

Example two_stacks_side_by_side :
  exists first w1 second w2,
    run (LearningStack 0%nat "LearningStack" None) app = Ok (first, w1) /\
    run (LearningStack 0%nat "Other" None) w1 = Ok (second, w2) /\
    children_of w2 0%nat = [("LearningStack", first); ("Other", second)] /\
    first <> second.
Proof.
  do 4 eexists. split; [vm_compute; reflexivity|].
  split; [vm_compute; reflexivity|]. now vm_compute.
Qed.

(** The constructor makes twelve calls, the inherited constructor first. *)
Example twelve_calls :
  length (trace (LearningStack 0%nat "LearningStack" None) app) = 12%nat.
Proof. reflexivity. Qed.

(** A scope that is not a construct (here: no object at all) is refused. *)
Example dangling_scope_is_refused :
  run (LearningStack 7%nat "LearningStack" None) app = Err (TypeError 7%nat).
Proof. reflexivity. Qed.

(** Reading the final heap: [this] and the objects after it. *)
Ltac observe :=
  unfold child_resource, admits, ingress_of, managedPolicies_of,
    tryFindChild, children_of, deps_of, depends_on, resource_at,
    synthesized;
  repeat (progress (rewrite ?lookup_frame, ?lookup_frame_0; cbn)).

Lemma constructs_intro w scope id props (post : loc -> World -> Prop) :
  available w scope id = true ->
  (forall P, P = registered w scope id ->
     post (length P) (P ++ synthesized (length P) scope id props)) ->
  constructs scope id props w post.
Proof.
  intros Hav Hpost.
  exists (length w),
         (registered w scope id ++ synthesized (length w) scope id props).
  split; [now apply LearningStack_run|].
  rewrite <- (length_registered w scope id). now apply Hpost.
Qed.

(* ===================================================================== *)
(** * The storage bucket                                                  *)
(* ===================================================================== *)

Lemma bucket_of_synthesized w scope id props :
  available w scope id = true ->
  constructs scope id props w (fun this w' =>
    bucket_of w' this = Some
      {| s3.BucketProps.bucketName :=
           Some ("learning-bucket-" +:+ MD5.hexdigest "learning-bucket");
         s3.BucketProps.removalPolicy := Some cdk.RemovalPolicy.DESTROY;
         s3.BucketProps.autoDeleteObjects := Some true |}).
Proof.
  intros Hav. apply constructs_intro; [exact Hav|]. intros P _.
  unfold bucket_of. observe. reflexivity.
Qed.

Lemma declared_bucketName_eq w scope id props :
  available w scope id = true ->
  declared_bucketName scope id props w
    = Some ("learning-bucket-" +:+ MD5.hexdigest "learning-bucket").
Proof.
  intros (this & w' & Hrun & Hb)%(bucket_of_synthesized _ _ _ props).
  unfold declared_bucketName. now rewrite Hrun, Hb.
Qed.

(** C1. For every invocation of the constructor that the base class
    accepts, whatever the heap, scope, id and properties, the bucket's
    name is "learning-bucket-" followed by the MD5 digest of
    "learning-bucket" in lowercase hexadecimal (the 32 digits
    c518d6b29ae8835e70c5573e0073f8fe), so any other invocation declares
    the very same name. *)
Theorem bucketName_is_fixed w scope id props :
  available w scope id = true ->
  declared_bucketName scope id props w
    = Some ("learning-bucket-" +:+ MD5.hexdigest "learning-bucket") /\
  MD5.hexdigest "learning-bucket" = "c518d6b29ae8835e70c5573e0073f8fe" /\
  List.Forall (fun c => In c (list_ascii_of_string "0123456789abcdef"))
              (list_ascii_of_string (MD5.hexdigest "learning-bucket")) /\
  (forall w2 scope2 id2 props2,
     available w2 scope2 id2 = true ->
     declared_bucketName scope2 id2 props2 w2
       = declared_bucketName scope id props w).
Proof.
  intros Hav. split; [now apply declared_bucketName_eq|].
  split; [vm_compute; reflexivity|].
  split; [apply hexdigest_lowercase|].
  intros w2 scope2 id2 props2 Hav2.
  now rewrite !declared_bucketName_eq.
Qed.

Lemma bucketName_is_fixed_witness :
  available app 0%nat "LearningStack" = true /\
  (declared_bucketName 0%nat "LearningStack" None app
     = Some ("learning-bucket-" +:+ MD5.hexdigest "learning-bucket") /\
   MD5.hexdigest "learning-bucket" = "c518d6b29ae8835e70c5573e0073f8fe" /\
   List.Forall (fun c => In c (list_ascii_of_string "0123456789abcdef"))
               (list_ascii_of_string (MD5.hexdigest "learning-bucket")) /\
   (forall w2 scope2 id2 props2,
      available w2 scope2 id2 = true ->
      declared_bucketName scope2 id2 props2 w2
        = declared_bucketName 0%nat "LearningStack" None app)).
Proof.
  split; [reflexivity|].
  exact (bucketName_is_fixed app 0%nat "LearningStack" None eq_refl).
Defined.

(** C5. The bucket descriptor has removal policy DESTROY and its
    auto-delete-objects flag set. *)
Theorem bucket_is_disposable w scope id props :
  available w scope id = true ->
  constructs scope id props w (fun this w' =>
    exists p,
      bucket_of w' this = Some p /\
      s3.BucketProps.removalPolicy p = Some cdk.RemovalPolicy.DESTROY /\
      s3.BucketProps.autoDeleteObjects p = Some true).
Proof.
  intros (this & w' & Hrun & Hb)%(bucket_of_synthesized _ _ _ props).
  exists this, w'. split; [exact Hrun|]. eexists. split; [exact Hb|].
  split; reflexivity.
Qed.

Lemma bucket_is_disposable_witness :
  available app 0%nat "LearningStack" = true /\
  constructs 0%nat "LearningStack" None app (fun this w' =>
    exists p,
      bucket_of w' this = Some p /\
      s3.BucketProps.removalPolicy p = Some cdk.RemovalPolicy.DESTROY /\
      s3.BucketProps.autoDeleteObjects p = Some true).
Proof.
  split; [reflexivity|].
  exact (bucket_is_disposable app 0%nat "LearningStack" None eq_refl).
Defined.

(* ===================================================================== *)
(** * The network                                                         *)
(* ===================================================================== *)

(** C6. The network descriptor has CIDR 10.0.0.0/16, at most one
    availability zone, and exactly one subnet group: public, with a /24
    mask, named "Public", public-IP auto-assignment off. *)
Theorem vpc_descriptor w scope id props :
  available w scope id = true ->
  constructs scope id props w (fun this w' =>
    exists vpc p subnet,
      child_resource w' this "Vpc" = Some (vpc, Vpc p) /\
      ec2.VpcProps.ipAddresses p = Some (ec2.IpAddresses.cidr "10.0.0.0/16") /\
      ec2.VpcProps.maxAzs p = Some 1 /\
      ec2.VpcProps.subnetConfiguration p = Some [subnet] /\
      ec2.SubnetConfiguration.subnetType subnet = ec2.SubnetType.PUBLIC /\
      ec2.SubnetConfiguration.cidrMask subnet = Some 24 /\
      ec2.SubnetConfiguration.name subnet = "Public" /\
      ec2.SubnetConfiguration.mapPublicIpOnLaunch subnet = Some false).
Proof.
  intros Hav. apply constructs_intro; [exact Hav|]. intros P _.
  do 3 eexists. observe. repeat split; reflexivity.
Qed.

Lemma vpc_descriptor_witness :
  available app 0%nat "LearningStack" = true /\
  constructs 0%nat "LearningStack" None app (fun this w' =>
    exists vpc p subnet,
      child_resource w' this "Vpc" = Some (vpc, Vpc p) /\
      ec2.VpcProps.ipAddresses p = Some (ec2.IpAddresses.cidr "10.0.0.0/16") /\
      ec2.VpcProps.maxAzs p = Some 1 /\
      ec2.VpcProps.subnetConfiguration p = Some [subnet] /\
      ec2.SubnetConfiguration.subnetType subnet = ec2.SubnetType.PUBLIC /\
      ec2.SubnetConfiguration.cidrMask subnet = Some 24 /\
      ec2.SubnetConfiguration.name subnet = "Public" /\
      ec2.SubnetConfiguration.mapPublicIpOnLaunch subnet = Some false).
Proof.
  split; [reflexivity|].
  exact (vpc_descriptor app 0%nat "LearningStack" None eq_refl).
Defined.

(* ===================================================================== *)
(** * The bastion host                                                    *)
(* ===================================================================== *)

(** C7. The host descriptor is named "bastion", is placed in the stack's
    network, carries the security group named "from-bastion", and declares
    exactly one block device: 30 units on "/dev/xvda". *)
Theorem bastion_descriptor w scope id props :
  available w scope id = true ->
  constructs scope id props w (fun this w' =>
    exists bastion p role vpc pv bastionSg pb rules,
      child_resource w' this "bastion"
        = Some (bastion, BastionHostLinux p role) /\
      ec2.BastionHostLinuxProps.instanceName p = Some "bastion" /\
      child_resource w' this "Vpc" = Some (vpc, Vpc pv) /\
      ec2.BastionHostLinuxProps.vpc p = vpc /\
      child_resource w' this "from-bastion"
        = Some (bastionSg, SecurityGroup pb rules) /\
      ec2.SecurityGroupProps.securityGroupName pb = Some "from-bastion" /\
      ec2.BastionHostLinuxProps.securityGroup p = Some bastionSg /\
      ec2.BastionHostLinuxProps.blockDevices p = Some [
        {| ec2.BlockDevice.deviceName := "/dev/xvda";
           ec2.BlockDevice.volume := ec2.BlockDeviceVolume.ebs 30 |} ]).
Proof.
  intros Hav. apply constructs_intro; [exact Hav|]. intros P _.
  do 8 eexists. observe. repeat split; reflexivity.
Qed.

Lemma bastion_descriptor_witness :
  available app 0%nat "LearningStack" = true /\
  constructs 0%nat "LearningStack" None app (fun this w' =>
    exists bastion p role vpc pv bastionSg pb rules,
      child_resource w' this "bastion"
        = Some (bastion, BastionHostLinux p role) /\
      ec2.BastionHostLinuxProps.instanceName p = Some "bastion" /\
      child_resource w' this "Vpc" = Some (vpc, Vpc pv) /\
      ec2.BastionHostLinuxProps.vpc p = vpc /\
      child_resource w' this "from-bastion"
        = Some (bastionSg, SecurityGroup pb rules) /\
      ec2.SecurityGroupProps.securityGroupName pb = Some "from-bastion" /\
      ec2.BastionHostLinuxProps.securityGroup p = Some bastionSg /\
      ec2.BastionHostLinuxProps.blockDevices p = Some [
        {| ec2.BlockDevice.deviceName := "/dev/xvda";
           ec2.BlockDevice.volume := ec2.BlockDeviceVolume.ebs 30 |} ]).
Proof.
  split; [reflexivity|].
  exact (bastion_descriptor app 0%nat "LearningStack" None eq_refl).
Defined.

(** C10. Whatever the invocation, the host's instance type is class C7I at
    size XLARGE2, the shape the framework writes "c7i.2xlarge". *)
Theorem bastion_instanceType w scope id props :
  available w scope id = true ->
  constructs scope id props w (fun this w' =>
    exists bastion p role ty,
      child_resource w' this "bastion"
        = Some (bastion, BastionHostLinux p role) /\
      ec2.BastionHostLinuxProps.instanceType p = Some ty /\
      ty = ec2.InstanceType.of_ ec2.InstanceClass.C7I ec2.InstanceSize.XLARGE2 /\
      ec2.InstanceType.instanceClass ty = ec2.InstanceClass.C7I /\
      ec2.InstanceType.instanceSize ty = ec2.InstanceSize.XLARGE2 /\
      ec2.InstanceType.toString ty = "c7i.2xlarge").
Proof.
  intros Hav. apply constructs_intro; [exact Hav|]. intros P _.
  do 4 eexists. observe. repeat split; reflexivity.
Qed.

Lemma bastion_instanceType_witness :
  available app 0%nat "LearningStack" = true /\
  constructs 0%nat "LearningStack" None app (fun this w' =>
    exists bastion p role ty,
      child_resource w' this "bastion"
        = Some (bastion, BastionHostLinux p role) /\
      ec2.BastionHostLinuxProps.instanceType p = Some ty /\
      ty = ec2.InstanceType.of_ ec2.InstanceClass.C7I ec2.InstanceSize.XLARGE2 /\
      ec2.InstanceType.instanceClass ty = ec2.InstanceClass.C7I /\
      ec2.InstanceType.instanceSize ty = ec2.InstanceSize.XLARGE2 /\
      ec2.InstanceType.toString ty = "c7i.2xlarge").
Proof.
  split; [reflexivity|].
  exact (bastion_instanceType app 0%nat "LearningStack" None eq_refl).
Defined.

(** C4. After construction, [bastion.role] is a role that holds the managed
    policy named "AdministratorAccess". *)
Theorem bastion_role_is_administrator w scope id props :
  available w scope id = true ->
  constructs scope id props w (fun this w' =>
    exists bastion role policies,
      tryFindChild w' this "bastion" = Some bastion /\
      exec (get_role bastion) w' = Ok (role, w') /\
      managedPolicies_of w' role = Some policies /\
      In (iam.ManagedPolicy.fromAwsManagedPolicyName "AdministratorAccess")
         policies).
Proof.
  intros Hav. apply constructs_intro; [exact Hav|]. intros P _.
  do 3 eexists. split; [observe; reflexivity|].
  split; [exec_frame|].
  split; [observe; reflexivity|]. now left.
Qed.

Lemma bastion_role_is_administrator_witness :
  available app 0%nat "LearningStack" = true /\
  constructs 0%nat "LearningStack" None app (fun this w' =>
    exists bastion role policies,
      tryFindChild w' this "bastion" = Some bastion /\
      exec (get_role bastion) w' = Ok (role, w') /\
      managedPolicies_of w' role = Some policies /\
      In (iam.ManagedPolicy.fromAwsManagedPolicyName "AdministratorAccess")
         policies).
Proof.
  split; [reflexivity|].
  exact (bastion_role_is_administrator app 0%nat "LearningStack" None eq_refl).
Defined.

(* ===================================================================== *)
(** * The security groups                                                 *)
(* ===================================================================== *)

Lemma Protocol_eqb_eq a b : ec2.Protocol.eqb a b = true <-> a = b.
Proof. destruct a, b; cbn; split; congruence. Qed.

Lemma Peer_eqb_eq a b : ec2.Peer.eqb a b = true <-> a = b.
Proof.
  destruct a, b; cbn; try (split; congruence).
  - rewrite Nat.eqb_eq. split; congruence.
  - rewrite String.eqb_eq. split; congruence.
  - rewrite String.eqb_eq. split; congruence.
Qed.

(** [Port.tcp n] lets through TCP port [n] and nothing else. *)
Lemma permits_tcp n p m :
  ec2.Port.permits (ec2.Port.tcp n) p m = true <-> p = ec2.Protocol.TCP /\ m = n.
Proof.
  unfold ec2.Port.permits, ec2.Port.tcp. cbn.
  destruct p; cbn; rewrite ?andb_true_iff, ?Z.leb_le;
    (split; [intros H | intros [H ->]]); try discriminate.
  - split; [reflexivity|lia].
  - split; lia.
Qed.

(** A group with a single rule lets through what that rule does. *)
Lemma admits_single w l p rule src proto port :
  resource_at w l = Some (SecurityGroup p [rule]) ->
  admits w l src proto port = ec2.IngressRule.admits rule src proto port.
Proof.
  intros H. unfold admits, ingress_of. rewrite H. cbn. apply orb_false_r.
Qed.

(** C2. After construction the group named "allow-from-bastion" has exactly
    one ingress rule; its source is the object of the group named
    "from-bastion" (a reference, not an identifier string) and its range is
    TCP port 22, so the group lets through traffic from that source on TCP
    port 22 and nothing else. *)
Theorem allowFromBastionSg_admits_only_bastion_ssh w scope id props :
  available w scope id = true ->
  constructs scope id props w (fun this w' =>
    exists bastionSg pb rb allowFromBastionSg pa rule,
      child_resource w' this "from-bastion"
        = Some (bastionSg, SecurityGroup pb rb) /\
      ec2.SecurityGroupProps.securityGroupName pb = Some "from-bastion" /\
      child_resource w' this "allow-from-bastion"
        = Some (allowFromBastionSg, SecurityGroup pa [rule]) /\
      ec2.SecurityGroupProps.securityGroupName pa = Some "allow-from-bastion" /\
      ec2.IngressRule.peer rule = ec2.Peer.securityGroup bastionSg /\
      ec2.IngressRule.connection rule = ec2.Port.tcp 22 /\
      (forall src proto port,
         admits w' allowFromBastionSg src proto port = true <->
         src = ec2.Peer.securityGroup bastionSg /\
         proto = ec2.Protocol.TCP /\ port = 22)).
Proof.
  intros Hav. apply constructs_intro; [exact Hav|]. intros P _.
  do 6 eexists.
  split; [observe; reflexivity|]. split; [reflexivity|].
  split; [observe; reflexivity|]. split; [reflexivity|].
  split; [reflexivity|]. split; [reflexivity|].
  intros src proto port.
  erewrite admits_single by (observe; reflexivity).
  unfold ec2.IngressRule.admits. cbn [ec2.IngressRule.peer ec2.IngressRule.connection].
  rewrite andb_true_iff, Peer_eqb_eq, permits_tcp.
  split; [intros [<- [-> ->]]|intros [-> [-> ->]]]; auto.
Qed.

Lemma allowFromBastionSg_admits_only_bastion_ssh_witness :
  available app 0%nat "LearningStack" = true /\
  constructs 0%nat "LearningStack" None app (fun this w' =>
    exists bastionSg pb rb allowFromBastionSg pa rule,
      child_resource w' this "from-bastion"
        = Some (bastionSg, SecurityGroup pb rb) /\
      ec2.SecurityGroupProps.securityGroupName pb = Some "from-bastion" /\
      child_resource w' this "allow-from-bastion"
        = Some (allowFromBastionSg, SecurityGroup pa [rule]) /\
      ec2.SecurityGroupProps.securityGroupName pa = Some "allow-from-bastion" /\
      ec2.IngressRule.peer rule = ec2.Peer.securityGroup bastionSg /\
      ec2.IngressRule.connection rule = ec2.Port.tcp 22 /\
      (forall src proto port,
         admits w' allowFromBastionSg src proto port = true <->
         src = ec2.Peer.securityGroup bastionSg /\
         proto = ec2.Protocol.TCP /\ port = 22)).
Proof.
  split; [reflexivity|].
  exact (allowFromBastionSg_admits_only_bastion_ssh
           app 0%nat "LearningStack" None eq_refl).
Defined.

(** C3. The group named "from-bastion" is created without ingress rules
    and keeps none. The calls of the constructor split at the one that
    creates the group: before it the group does not exist, after it and
    after every later call its rule list is empty, and no call at all adds
    an ingress rule to it; at the end it lets nothing through. *)
Theorem bastionSg_never_has_ingress w scope id props :
  available w scope id = true ->
  constructs scope id props w (fun this w' =>
    exists bastionSg pb before e w1 after,
      child_resource w' this "from-bastion"
        = Some (bastionSg, SecurityGroup pb []) /\
      ec2.SecurityGroupProps.securityGroupName pb = Some "from-bastion" /\
      (forall src proto port, admits w' bastionSg src proto port = false) /\
      trace (LearningStack scope id props) w = before ++ (e, w1) :: after /\
      created e = Some (Group, bastionSg) /\
      w !! bastionSg = None /\
      Forall (fun s => snd s !! bastionSg = None) before /\
      Forall (fun s => ingress_of (snd s) bastionSg = Some [])
             ((e, w1) :: after) /\
      Forall (fun s => ingress_target (fst s) <> Some bastionSg)
             (trace (LearningStack scope id props) w)).
Proof.
  intros Hav. apply constructs_intro; [exact Hav|]. intros P HPeq.
  trace_explicit Hav P HPeq Ht. rewrite Ht. clear Ht.
  exists (length P + 2)%nat. eexists. eexists [_; _]. do 3 eexists.
  split; [observe; reflexivity|]. split; [reflexivity|].
  split; [intros; observe; reflexivity|].
  split; [cbn [app]; reflexivity|].
  split; [reflexivity|].
  split; [apply lookup_ge_None; rewrite HPeq, length_registered; lia|].
  split; [repeat (apply Forall_cons; split); try (now constructor);
          cbn [snd]; observe; reflexivity|].
  split; repeat (apply Forall_cons; split); try (now constructor).
  all: cbn [fst snd ingress_target];
    first [ discriminate | intros [= ?]; lia | observe; reflexivity ].
Qed.

Lemma bastionSg_never_has_ingress_witness :
  available app 0%nat "LearningStack" = true /\
  constructs 0%nat "LearningStack" None app (fun this w' =>
    exists bastionSg pb before e w1 after,
      child_resource w' this "from-bastion"
        = Some (bastionSg, SecurityGroup pb []) /\
      ec2.SecurityGroupProps.securityGroupName pb = Some "from-bastion" /\
      (forall src proto port, admits w' bastionSg src proto port = false) /\
      trace (LearningStack 0%nat "LearningStack" None) app = before ++ (e, w1) :: after /\
      created e = Some (Group, bastionSg) /\
      app !! bastionSg = None /\
      Forall (fun s => snd s !! bastionSg = None) before /\
      Forall (fun s => ingress_of (snd s) bastionSg = Some [])
             ((e, w1) :: after) /\
      Forall (fun s => ingress_target (fst s) <> Some bastionSg)
             (trace (LearningStack 0%nat "LearningStack" None) app)).
Proof.
  split; [reflexivity|].
  exact (bastionSg_never_has_ingress app 0%nat "LearningStack" None eq_refl).
Defined.

(* ===================================================================== *)
(** * The descriptor tree and its dependencies                            *)
(* ===================================================================== *)

(** References that always point to a smaller index cannot form a cycle. *)
Lemma decreasing_paths (R : loc -> loc -> Prop) (M : loc -> Prop) :
  (forall a b, M a -> R a b -> M b /\ (b < a)%nat) ->
  forall a b, clos_trans loc R a b -> M a -> M b /\ (b < a)%nat.
Proof.
  intros Hstep a b Hab.
  induction Hab as [a b Hab|a m b _ IH1 _ IH2]; intros Ha.
  - now apply Hstep.
  - destruct (IH1 Ha) as [Hm Hlt1]. destruct (IH2 Hm) as [Hb Hlt2].
    split; [exact Hb|lia].
Qed.

(** A descriptor without references depends on nothing, however far. *)
Lemma no_refs_no_path w a b :
  deps_of w a = [] -> ~ clos_trans loc (depends_on w) a b.
Proof.
  intros Hnil Hab.
  induction Hab as [a b Hab|a m b _ IH1 _ _]; [|now apply IH1].
  unfold depends_on in Hab. now rewrite Hnil in Hab.
Qed.

Section Synthesized.
Variables (P : World) (scope : loc) (id : string)
          (props : option cdk.StackProps.t).

Lemma tree_synthesized d :
  tree (P ++ synthesized (length P) scope id props) (length P) d
  = [length P; length P + 1; length P + 2; length P + 3;
     length P + 5; length P + 6; length P + 7]%nat.
Proof.
  unfold tree, subtree. cbn [Nat.add]. fold subtree.
  observe. reflexivity.
Qed.

Lemma deps_synthesized :
  let w' := P ++ synthesized (length P) scope id props in
  deps_of w' (length P) = [] /\
  deps_of w' (length P + 1)%nat = [] /\
  deps_of w' (length P + 2)%nat = [(length P + 1)%nat] /\
  deps_of w' (length P + 3)%nat = [(length P + 1)%nat; (length P + 2)%nat] /\
  deps_of w' (length P + 5)%nat = [] /\
  deps_of w' (length P + 6)%nat = [(length P + 1)%nat; (length P + 2)%nat] /\
  deps_of w' (length P + 7)%nat = [].
Proof. cbv zeta. repeat split; observe; reflexivity. Qed.

Lemma kinds_synthesized :
  let w' := P ++ synthesized (length P) scope id props in
  kind_at w' (length P) = Some Other /\
  kind_at w' (length P + 1)%nat = Some Network /\
  kind_at w' (length P + 2)%nat = Some Group /\
  kind_at w' (length P + 3)%nat = Some Group /\
  kind_at w' (length P + 5)%nat = Some Storage /\
  kind_at w' (length P + 6)%nat = Some Instance /\
  kind_at w' (length P + 7)%nat = Some Other.
Proof. cbv zeta. unfold kind_at. repeat split; observe; reflexivity. Qed.

(** The constructs of each kind in the tree. *)
Lemma of_kind_synthesized k d :
  let w' := P ++ synthesized (length P) scope id props in
  of_kind w' k (tree w' (length P) d)
  = match k with
    | Network => [length P + 1]
    | Group => [length P + 2; length P + 3]
    | Storage => [length P + 5]
    | Instance => [length P + 6]
    | Other => [length P; length P + 7]
    end%nat.
Proof.
  cbv zeta. rewrite tree_synthesized.
  destruct kinds_synthesized as (H0 & H1 & H2 & H3 & H5 & H6 & H7).
  unfold of_kind, has_kind. cbn [List.filter].
  rewrite H0, H1, H2, H3, H5, H6, H7. now destruct k.
Qed.

(** Every reference held in the tree points into the tree, to a descriptor
    created earlier. *)
Lemma refs_point_back d a b :
  let w' := P ++ synthesized (length P) scope id props in
  In a (tree w' (length P) d) -> depends_on w' a b ->
  In b (tree w' (length P) d) /\ (b < a)%nat.
Proof.
  cbv zeta. rewrite tree_synthesized. unfold depends_on.
  destruct deps_synthesized as (H0 & H1 & H2 & H3 & H5 & H6 & H7).
  cbn [In].
  intros [<-|[<-|[<-|[<-|[<-|[<-|[<-|[]]]]]]]];
    rewrite ?H0, ?H1, ?H2, ?H3, ?H5, ?H6, ?H7; cbn [In];
    intros Hb; repeat destruct Hb as [<-|Hb]; try contradiction;
    (split; [tauto|lia]).
Qed.

Lemma no_cycles d l :
  let w' := P ++ synthesized (length P) scope id props in
  In l (tree w' (length P) d) -> ~ clos_trans loc (depends_on w') l l.
Proof.
  cbv zeta. intros Hl Hcyc.
  destruct (decreasing_paths _ _ (refs_point_back d) l l Hcyc Hl) as [_ Hlt].
  lia.
Qed.

End Synthesized.

(** C8. Constructed without stack properties, the stack's descriptor tree
    holds exactly one network, exactly two security groups, exactly one
    bucket and exactly one compute instance; the references among them
    (internal group to bastion group, both groups and the host to the
    network, the host to the bastion group) are there, every reference
    points to a descriptor of the tree created earlier, and no descriptor
    reaches itself along references. *)
Theorem tree_has_five_resources_without_cycles w scope id :
  available w scope id = true ->
  constructs scope id None w (fun this w' =>
    exists vpc bastionSg allowFromBastionSg bucket bastion,
      (forall d, of_kind w' Network (tree w' this d) = [vpc]) /\
      (forall d, of_kind w' Group (tree w' this d)
                 = [bastionSg; allowFromBastionSg]) /\
      bastionSg <> allowFromBastionSg /\
      (forall d, of_kind w' Storage (tree w' this d) = [bucket]) /\
      (forall d, of_kind w' Instance (tree w' this d) = [bastion]) /\
      depends_on w' allowFromBastionSg bastionSg /\
      depends_on w' bastionSg vpc /\
      depends_on w' allowFromBastionSg vpc /\
      depends_on w' bastion vpc /\
      depends_on w' bastion bastionSg /\
      (forall d a b,
         In a (tree w' this d) -> depends_on w' a b ->
         In b (tree w' this d) /\ (b < a)%nat) /\
      (forall d l,
         In l (tree w' this d) -> ~ clos_trans loc (depends_on w') l l)).
Proof.
  intros Hav. apply constructs_intro; [exact Hav|]. intros P _.
  exists (length P + 1)%nat, (length P + 2)%nat, (length P + 3)%nat,
         (length P + 5)%nat, (length P + 6)%nat.
  destruct (deps_synthesized P scope id None) as (_ & _ & H2 & H3 & _ & H6 & _).
  split; [intros d; apply (of_kind_synthesized P scope id None Network)|].
  split; [intros d; apply (of_kind_synthesized P scope id None Group)|].
  split; [lia|].
  split; [intros d; apply (of_kind_synthesized P scope id None Storage)|].
  split; [intros d; apply (of_kind_synthesized P scope id None Instance)|].
  unfold depends_on at 1 2 3 4 5. rewrite H2, H3, H6. cbn [In].
  do 5 (split; [tauto|]).
  split; [intros d a b; apply refs_point_back|].
  intros d l. apply no_cycles.
Qed.

Lemma tree_has_five_resources_without_cycles_witness :
  available app 0%nat "LearningStack" = true /\
  constructs 0%nat "LearningStack" None app (fun this w' =>
    exists vpc bastionSg allowFromBastionSg bucket bastion,
      (forall d, of_kind w' Network (tree w' this d) = [vpc]) /\
      (forall d, of_kind w' Group (tree w' this d)
                 = [bastionSg; allowFromBastionSg]) /\
      bastionSg <> allowFromBastionSg /\
      (forall d, of_kind w' Storage (tree w' this d) = [bucket]) /\
      (forall d, of_kind w' Instance (tree w' this d) = [bastion]) /\
      depends_on w' allowFromBastionSg bastionSg /\
      depends_on w' bastionSg vpc /\
      depends_on w' allowFromBastionSg vpc /\
      depends_on w' bastion vpc /\
      depends_on w' bastion bastionSg /\
      (forall d a b,
         In a (tree w' this d) -> depends_on w' a b ->
         In b (tree w' this d) /\ (b < a)%nat) /\
      (forall d l,
         In l (tree w' this d) -> ~ clos_trans loc (depends_on w') l l)).
Proof.
  split; [reflexivity|].
  exact (tree_has_five_resources_without_cycles
           app 0%nat "LearningStack" eq_refl).
Defined.

(* ===================================================================== *)
(** * Creation order                                                      *)
(* ===================================================================== *)

(** C9, as stated, fails: on the empty application the bucket is created
    fourth and refers to nothing, so it does not depend on the group
    created before it; the resources are not each dependent on their
    predecessor. *)
Lemma bucket_does_not_depend_on_previous :
  ~ each_depends_on_previous 0%nat "LearningStack" None app.
Proof.
  intros (this & w' & Hrun & vpc & bastionSg & allowFromBastionSg & bucket
          & bastion & Hcreated & _ & _ & _ & _ & Hbucket & _).
  vm_compute in Hrun. injection Hrun as <- <-.
  vm_compute in Hcreated. injection Hcreated as <- <- <- <- <-.
  now apply no_refs_no_path in Hbucket.
Qed.

(** C9 (amended). The constructor creates the five resources in the order
    network, bastion group, internal group, bucket, host. The bastion group
    refers to the network and the internal group to the network and the
    bastion group, each thus depending on the resource created just before
    it; the bucket refers to no resource; the host refers to the network
    and the bastion group, not to the bucket. Every reference points to a
    resource created earlier. *)
Theorem created_in_order_referring_back w scope id props :
  available w scope id = true ->
  constructs scope id props w (fun this w' =>
    exists vpc bastionSg allowFromBastionSg bucket bastion,
      creations (trace (LearningStack scope id props) w)
        = [(Network, vpc); (Group, bastionSg); (Group, allowFromBastionSg);
           (Storage, bucket); (Instance, bastion)] /\
      tryFindChild w' this "Vpc" = Some vpc /\
      tryFindChild w' this "from-bastion" = Some bastionSg /\
      tryFindChild w' this "allow-from-bastion" = Some allowFromBastionSg /\
      tryFindChild w' this "bucket" = Some bucket /\
      tryFindChild w' this "bastion" = Some bastion /\
      deps_of w' vpc = [] /\
      deps_of w' bastionSg = [vpc] /\
      deps_of w' allowFromBastionSg = [vpc; bastionSg] /\
      deps_of w' bucket = [] /\
      deps_of w' bastion = [vpc; bastionSg] /\
      (vpc < bastionSg < allowFromBastionSg)%nat /\
      (allowFromBastionSg < bucket < bastion)%nat).
Proof.
  intros Hav. apply constructs_intro; [exact Hav|]. intros P HPeq.
  trace_explicit Hav P HPeq Ht. rewrite Ht. clear Ht.
  exists (length P + 1)%nat, (length P + 2)%nat, (length P + 3)%nat,
         (length P + 5)%nat, (length P + 6)%nat.
  destruct (deps_synthesized P scope id props)
    as (_ & H1 & H2 & H3 & H5 & H6 & _).
  split; [reflexivity|].
  do 5 (split; [observe; reflexivity|]).
  repeat split; try assumption; lia.
Qed.

Lemma created_in_order_referring_back_witness :
  available app 0%nat "LearningStack" = true /\
  constructs 0%nat "LearningStack" None app (fun this w' =>
    exists vpc bastionSg allowFromBastionSg bucket bastion,
      creations (trace (LearningStack 0%nat "LearningStack" None) app)
        = [(Network, vpc); (Group, bastionSg); (Group, allowFromBastionSg);
           (Storage, bucket); (Instance, bastion)] /\
      tryFindChild w' this "Vpc" = Some vpc /\
      tryFindChild w' this "from-bastion" = Some bastionSg /\
      tryFindChild w' this "allow-from-bastion" = Some allowFromBastionSg /\
      tryFindChild w' this "bucket" = Some bucket /\
      tryFindChild w' this "bastion" = Some bastion /\
      deps_of w' vpc = [] /\
      deps_of w' bastionSg = [vpc] /\
      deps_of w' allowFromBastionSg = [vpc; bastionSg] /\
      deps_of w' bucket = [] /\
      deps_of w' bastion = [vpc; bastionSg] /\
      (vpc < bastionSg < allowFromBastionSg)%nat /\
      (allowFromBastionSg < bucket < bastion)%nat).
Proof.
  split; [reflexivity|].
  exact (created_in_order_referring_back app 0%nat "LearningStack" None eq_refl).
Defined.

(* ===================================================================== *)
(** * The constructor and the rest of the heap                            *)
(* ===================================================================== *)

Lemma has_child_add_child_same id l n :
  Node.has_child id (Node.add_child id l n) = true.
Proof.
  unfold Node.has_child, Node.add_child. cbn.
  rewrite existsb_app. cbn. rewrite String.eqb_refl. apply orb_true_iff.
  right. reflexivity.
Qed.



Lemma registered_scope w scope id n r :
  w !! scope = Some (Construct n r) ->
  registered w scope id !! scope
  = Some (Construct (Node.add_child id (length w) n) r).
Proof.
  intros Hs. unfold registered. rewrite Hs.
  apply list_lookup_insert_eq. eapply lookup_lt_Some, Hs.
Qed.


(** After construction the old objects are where they were. *)
Lemma old_part w scope id props l :
  (l < length w)%nat ->
  (registered w scope id ++ synthesized (length w) scope id props) !! l
  = registered w scope id !! l.
Proof. intros Hl. apply lookup_app_l. now rewrite length_registered. Qed.




(** X3. A second stack of the same id in the same scope is refused: once
    the constructor has returned, [id] is taken in [scope], and calling
    the constructor there again with that id, whatever the properties,
    throws [NameTaken]. *)
Theorem same_id_is_refused_afterwards w scope id props props2 :
  available w scope id = true ->
  constructs scope id props w (fun this w' =>
    available w' scope id = false /\
    run (LearningStack scope id props2) w' = Err (NameTaken scope id)).
Proof.
  intros Hav. exists (length w). eexists.
  split; [now apply LearningStack_run|].
  destruct (available_inv _ _ _ Hav) as (n & r & Hs & _).
  assert (Hs' : (registered w scope id
                   ++ synthesized (length w) scope id props) !! scope
                = Some (Construct (Node.add_child id (length w) n) r)).
  { rewrite old_part by (eapply lookup_lt_Some, Hs).
    now apply registered_scope. }
  split.
  - unfold available. now rewrite Hs', has_child_add_child_same.
  - unfold LearningStack. cbn [run exec]. unfold Construct_new.
    now rewrite Hs', has_child_add_child_same.
Qed.

Lemma same_id_is_refused_afterwards_witness :
  available app 0%nat "LearningStack" = true /\
  constructs 0%nat "LearningStack" None app (fun this w' =>
    available w' 0%nat "LearningStack" = false /\
    run (LearningStack 0%nat "LearningStack" None) w'
    = Err (NameTaken 0%nat "LearningStack")).
Proof.
  split; [reflexivity|].
  exact (same_id_is_refused_afterwards
           app 0%nat "LearningStack" None None eq_refl).
Defined.






(* ===================================================================== *)
(** * The construct tree of the stack                                     *)
(* ===================================================================== *)

Ltac observe_nodes :=
  unfold node_at, refs_well_typed, has_kind, kind_at, managedPolicies_of,
    tryFindChild, children_of, resource_at, synthesized;
  repeat (progress (rewrite ?lookup_frame, ?lookup_frame_0; cbn)).



(** X10. No reference of the stack's tree dangles or points to the wrong
    kind of object: in every descriptor of the tree, [vpc] is a network,
    [securityGroup] and the group peer of each ingress rule are security
    groups, and the host's role is a role. *)
Theorem references_are_well_typed w scope id props :
  available w scope id = true ->
  constructs scope id props w (fun this w' =>
    forall d a,
      In a (tree w' this d) ->
      exists r, resource_at w' a = Some r /\ refs_well_typed w' r = true).
Proof.
  intros Hav. apply constructs_intro; [exact Hav|]. intros P _.
  intros d a. rewrite tree_synthesized. cbn [In].
  intros [<-|[<-|[<-|[<-|[<-|[<-|[<-|[]]]]]]]];
    eexists; (split; [observe; reflexivity|]);
    observe_nodes; reflexivity.
Qed.

Lemma references_are_well_typed_witness :
  available app 0%nat "LearningStack" = true /\
  constructs 0%nat "LearningStack" None app (fun this w' =>
    forall d a,
      In a (tree w' this d) ->
      exists r, resource_at w' a = Some r /\ refs_well_typed w' r = true).
Proof.
  split; [reflexivity|].
  exact (references_are_well_typed app 0%nat "LearningStack" None eq_refl).
Defined.

(** The predicate is not vacuous: a group placed in something that is not
    a network is ill-typed. *)
Example root_is_not_a_network :
  refs_well_typed app
    (SecurityGroup {| ec2.SecurityGroupProps.securityGroupName := None;
                      ec2.SecurityGroupProps.vpc := 0%nat |} [])
  = false.
Proof. reflexivity. Qed.

(* ===================================================================== *)
(** * What the arguments are used for                                     *)
(* ===================================================================== *)




(* ===================================================================== *)
(** * The hash object                                                     *)
(* ===================================================================== *)

(** X7. The hash is a new object outside the construct tree, used once:
    the run creates one hash, for "md5", feeds it the one input
    "learning-bucket" and takes one digest of it, in 'hex', whose result
    is the MD5 of that input. The object is left finalized, so a further
    [update] or [digest] on it throws. *)
Theorem hash_is_used_once w scope id props :
  available w scope id = true ->
  constructs scope id props w (fun this w' =>
    exists hash,
      w !! hash = None /\
      hashes_created (trace (LearningStack scope id props) w)
      = [("md5", hash)] /\
      updates (trace (LearningStack scope id props) w)
      = [(hash, "learning-bucket")] /\
      digests (trace (LearningStack scope id props) w)
      = [(hash, "hex", MD5.hexdigest "learning-bucket")] /\
      w' !! hash = Some (Hash "md5" "learning-bucket" true) /\
      (forall d, ~ In hash (tree w' this d)) /\
      (forall data, exec (update hash data) w' = Err (HashFinalized hash)) /\
      (forall encoding,
         exec (digest hash encoding) w' = Err (HashFinalized hash))).
Proof.
  intros Hav. apply constructs_intro; [exact Hav|]. intros P HPeq.
  trace_explicit Hav P HPeq Ht. rewrite Ht. clear Ht.
  exists (length P + 4)%nat.
  split; [apply lookup_ge_None; rewrite HPeq, length_registered; lia|].
  do 3 (split; [reflexivity|]).
  split; [now rewrite lookup_frame|].
  split; [intros d; rewrite tree_synthesized; cbn [In]; lia|].
  split; intros; cbn [exec]; unfold Hash_update, Hash_digest;
    now rewrite lookup_frame.
Qed.

Lemma hash_is_used_once_witness :
  available app 0%nat "LearningStack" = true /\
  constructs 0%nat "LearningStack" None app (fun this w' =>
    exists hash,
      app !! hash = None /\
      hashes_created (trace (LearningStack 0%nat "LearningStack" None) app)
      = [("md5", hash)] /\
      updates (trace (LearningStack 0%nat "LearningStack" None) app)
      = [(hash, "learning-bucket")] /\
      digests (trace (LearningStack 0%nat "LearningStack" None) app)
      = [(hash, "hex", MD5.hexdigest "learning-bucket")] /\
      w' !! hash = Some (Hash "md5" "learning-bucket" true) /\
      (forall d, ~ In hash (tree w' this d)) /\
      (forall data, exec (update hash data) w' = Err (HashFinalized hash)) /\
      (forall encoding,
         exec (digest hash encoding) w' = Err (HashFinalized hash))).
Proof.
  split; [reflexivity|].
  exact (hash_is_used_once app 0%nat "LearningStack" None eq_refl).
Defined.

(* ===================================================================== *)
(** * The digest, for every input                                         *)
(* ===================================================================== *)

(** X8. Whatever is hashed, the 'hex' digest is 32 characters long and
    each of them is one of 0-9, a-f. *)
Theorem hexdigest_shape s :
  String.length (MD5.hexdigest s) = 32%nat /\
  List.Forall (fun c => In c (list_ascii_of_string "0123456789abcdef"))
              (list_ascii_of_string (MD5.hexdigest s)).
Proof. split; [apply length_hexdigest|apply hexdigest_lowercase]. Qed.

Lemma length_pad bs :
  exists q,
    (0 < q)%nat /\
    length (MD5.pad bs) = (64 * q)%nat /\
    (length bs + 9 <= 64 * q < length bs + 9 + 64)%nat.
Proof.
  unfold MD5.pad. cbv zeta.
  rewrite !length_app, repeat_length, length_le_bytes. cbn [length].
  set (z := Z.of_nat (length bs)).
  pose proof (Z.mod_pos_bound (55 - z) 64 ltac:(lia)) as Hm.
  pose proof (Z.div_mod (55 - z) 64 ltac:(lia)) as Hdm.
  set (m := (55 - z) mod 64) in *. set (d := (55 - z) / 64) in *.
  exists (Z.to_nat (1 - d)). subst z. lia.
Qed.

Lemma blocks_cover n :
  forall bs,
    length bs = (64 * n)%nat ->
    concat (MD5.blocks n bs) = bs /\
    List.Forall (fun b => length b = 64%nat) (MD5.blocks n bs).
Proof.
  induction n as [|n IH]; intros bs Hlen; cbn [MD5.blocks concat].
  - destruct bs; [split; [reflexivity|constructor]|discriminate].
  - destruct (IH (skipn 64 bs)) as [Hc Hf];
      [rewrite length_skipn; lia|].
    split.
    + rewrite Hc. apply firstn_skipn.
    + constructor; [rewrite length_firstn; lia|exact Hf].
Qed.

Lemma length_words m :
  forall bs, length bs = (4 * m)%nat -> length (MD5.words bs) = m.
Proof.
  induction m as [|m IH]; intros bs Hlen.
  - now destruct bs.
  - destruct bs as [|b0 [|b1 [|b2 [|b3 rest]]]]; try (cbn in Hlen; lia).
    cbn [MD5.words length]. f_equal. apply IH. cbn in Hlen. lia.
Qed.

(** X9. Padding loses and invents nothing. For every input the padded
    message starts with the input, is at least 9 bytes and less than 73
    bytes longer, and its length is a positive multiple of 64; cutting it
    into blocks gives back exactly the padded message, and every block is
    64 bytes, that is 16 words. *)
Theorem pad_fills_whole_blocks bs :
  let padded := MD5.pad bs in
  let n := (length padded / 64)%nat in
  (0 < n)%nat /\
  length padded = (64 * n)%nat /\
  (length bs + 9 <= length padded < length bs + 9 + 64)%nat /\
  firstn (length bs) padded = bs /\
  concat (MD5.blocks n padded) = padded /\
  List.Forall (fun b => length b = 64%nat /\ length (MD5.words b) = 16%nat)
              (MD5.blocks n padded).
Proof.
  cbv zeta. destruct (length_pad bs) as (q & Hq & Hlen & Hbounds).
  assert (Hn : (length (MD5.pad bs) / 64)%nat = q).
  { rewrite Hlen, Nat.mul_comm. apply Nat.div_mul. lia. }
  rewrite Hn.
  destruct (blocks_cover q (MD5.pad bs) Hlen) as [Hc Hf].
  split; [exact Hq|]. split; [exact Hlen|].
  split; [rewrite Hlen; exact Hbounds|].
  split; [unfold MD5.pad; cbv zeta; now rewrite firstn_app, Nat.sub_diag,
            firstn_all, firstn_O, app_nil_r|].
  split; [exact Hc|].
  eapply List.Forall_impl; [|exact Hf].
  intros b Hb. split; [exact Hb|]. apply length_words. rewrite Hb. reflexivity.
Qed.
